(** * The GitHub GraphQL relay (github_graphql_mcp_server.py)

    A shallow embedding of the two functions of the server,
    [make_github_request] and [github_execute_graphql], of the statements
    the module runs when it is loaded and of its main block, together with
    the parts of Python, [json] and [httpx] they rely on, and the properties
    of the relay stated over it.

    Conventions.
    - A Python [str] is a [string]; each character stands for the code
      point of the same number (0..255).
    - A value produced by [json.loads] is a [json] term; a float is
      identified by its Python [repr], a dict by its members in insertion
      order.
    - Python code that can raise runs in the monad [Py]: a computation takes
      the process state ([World]) and gives back either a value or the
      exception raised, with the state it leaves behind.
    - The remote endpoint is a function from the request to the outcome of
      [client.post]: a response, or an exception.

    Left out: the creation of the [FastMCP] object and the registration of
    the tool, opening and closing the [httpx.AsyncClient], the traceback
    that [exc_info=True] adds to a log record, the time stamp of a log
    record, and exceptions that are not instances of [Exception]
    (cancellation of the task, interrupts). *)

From Stdlib Require Import String Ascii List ZArith Bool.
From Stdlib Require Import DecimalString.
Import ListNotations.

Local Open Scope string_scope.
Local Open Scope Z_scope.

(* ===================================================================== *)
(** * Python strings and the builtins the server uses *)
(* ===================================================================== *)

Module PyStr.

(** [bool(s)]: a string is true when it is not empty. *)
Definition truthy (s : string) : bool :=
  match s with
  | EmptyString => false
  | String _ _ => true
  end.

(** [s[:n]] *)
Definition take (n : nat) (s : string) : string := substring 0 n s.

(** [sep.join(parts)] *)
Fixpoint join (sep : string) (parts : list string) : string :=
  match parts with
  | [] => ""
  | [p] => p
  | p :: rest => p ++ sep ++ join sep rest
  end.

(** [needle in hay] for two strings. *)
Fixpoint contains (needle hay : string) : bool :=
  match hay with
  | EmptyString => prefix needle hay
  | String _ rest => prefix needle hay || contains needle rest
  end.

Definition code (c : ascii) : Z := Z.of_nat (nat_of_ascii c).

(** The double quote character. *)
Definition dquote : ascii := "034"%char.

(** ASCII lower-casing, as used for header names. *)
Definition lower_char (c : ascii) : ascii :=
  if (65 <=? code c) && (code c <=? 90)
  then ascii_of_nat (nat_of_ascii c + 32)
  else c.

Fixpoint lower (s : string) : string :=
  match s with
  | EmptyString => EmptyString
  | String c rest => String (lower_char c) (lower rest)
  end.

(** [str(n)] for an integer. *)
Definition of_Z (n : Z) : string := NilZero.string_of_int (Z.to_int n).

Definition hex_digit (n : Z) : ascii :=
  if n <? 10 then ascii_of_nat (Z.to_nat (48 + n))
  else ascii_of_nat (Z.to_nat (87 + n)).

(** Two lower-case hexadecimal digits of a code point below 256. *)
Definition hex2 (n : Z) : string :=
  String (hex_digit (n / 16)) (String (hex_digit (n mod 16)) "").

(** Code points below 256 that [repr] does not print as they are. *)
Definition unprintable (n : Z) : bool :=
  (n <? 32) || ((127 <=? n) && (n <=? 160)) || (n =? 173).

Definition repr_char (quote c : ascii) : string :=
  if Ascii.eqb c quote then String "\" (String c "")
  else if Ascii.eqb c "\" then "\\"
  else if code c =? 9 then "\t"
  else if code c =? 10 then "\n"
  else if code c =? 13 then "\r"
  else if unprintable (code c) then "\x" ++ hex2 (code c)
  else String c "".

Fixpoint repr_body (quote : ascii) (s : string) : string :=
  match s with
  | EmptyString => ""
  | String c rest => repr_char quote c ++ repr_body quote rest
  end.

(** [repr(s)]: single quotes, unless the string has a single quote and
    no double quote. *)
Definition repr (s : string) : string :=
  let quote : ascii :=
    if contains "'" s && negb (contains (String dquote "") s)
    then dquote else "'"%char in
  String quote (repr_body quote s) ++ String quote "".


(** ** [int(s)] on a string, base 10

    The literal is: optional white space, an optional sign, decimal digits
    with single underscores allowed between two digits, optional white
    space. More than [int_max_str_digits] digits are refused (the
    interpreter's default limit). *)

Definition is_space (c : ascii) : bool :=
  ((9 <=? code c) && (code c <=? 13)) || (code c =? 32)
  || (code c =? 133) || (code c =? 160).

Definition is_digit (c : ascii) : bool := (48 <=? code c) && (code c <=? 57).

Fixpoint lstrip (s : string) : string :=
  match s with
  | EmptyString => s
  | String c rest => if is_space c then lstrip rest else s
  end.

Definition int_max_str_digits : Z := 4300.

(** What reading a literal gives: its value, a literal that is not one,
    or a literal over the digit limit (with its number of digits). *)
Inductive int_literal : Type :=
| IntValue (n : Z)
| IntInvalid
| IntTooLong (digits : Z).

(** The digits after the sign: [prev_us] tells that the last character
    read was an underscore; gives the value read, the number of digits and
    what follows them. *)
Fixpoint scan_digits (s : string) (prev_us : bool) (acc digits : Z)
  : option (Z * Z * string) :=
  match s with
  | EmptyString => if prev_us then None else Some (acc, digits, s)
  | String c rest =>
      if is_digit c then scan_digits rest false (10 * acc + (code c - 48)) (digits + 1)
      else if Ascii.eqb c "_" then
        if prev_us then None else scan_digits rest true acc digits
      else if prev_us then None else Some (acc, digits, s)
  end.

Definition read_sign (s : string) : Z * string :=
  match s with
  | String "+" rest => (1, rest)
  | String "-" rest => (-1, rest)
  | _ => (1, s)
  end.

Definition parse_int (s : string) : int_literal :=
  let (sign, body) := read_sign (lstrip s) in
  match body with
  | String "_" _ => IntInvalid
  | _ =>
      match scan_digits body false 0 0 with
      | None => IntInvalid
      | Some (value, digits, rest) =>
          if digits =? 0 then IntInvalid
          else if int_max_str_digits <? digits then IntTooLong digits
          else match lstrip rest with
               | EmptyString => IntValue (sign * value)
               | String _ _ => IntInvalid
               end
      end
  end.

End PyStr.

(* ===================================================================== *)
(** * JSON values, [json.dumps] and [str] *)
(* ===================================================================== *)

(** What [json.loads] returns: [None], a [bool], an [int], a [float]
    (named by its [repr]), a [str], a [list] or a [dict] with string keys,
    in insertion order. *)
#[local] Set Warnings "-register-all".

Inductive json : Type :=
| JNull
| JBool (b : bool)
| JInt (n : Z)
| JFloat (repr : string)
| JStr (s : string)
| JArr (items : list json)
| JObj (members : list (string * json)).

Module Json.

Import PyStr.

(** [key in d] and [d.get(key)] on the members of a dict. *)
Fixpoint lookup (key : string) (members : list (string * json)) : option json :=
  match members with
  | [] => None
  | (k, v) :: rest => if String.eqb k key then Some v else lookup key rest
  end.

Definition has_key (key : string) (members : list (string * json)) : bool :=
  match lookup key members with
  | Some _ => true
  | None => false
  end.

(** [type(v).__name__] *)
Definition type_name (v : json) : string :=
  match v with
  | JNull => "NoneType"
  | JBool _ => "bool"
  | JInt _ => "int"
  | JFloat _ => "float"
  | JStr _ => "str"
  | JArr _ => "list"
  | JObj _ => "dict"
  end.

(** [repr(v)] *)
Fixpoint py_repr (v : json) : string :=
  match v with
  | JNull => "None"
  | JBool true => "True"
  | JBool false => "False"
  | JInt n => of_Z n
  | JFloat r => r
  | JStr s => repr s
  | JArr items => "[" ++ join ", " (map py_repr items) ++ "]"
  | JObj members =>
      "{" ++ join ", " (map (fun kv : string * json =>
                               let (k, x) := kv in repr k ++ ": " ++ py_repr x)
                            members) ++ "}"
  end.

(** [str(v)], which is what an f-string field [{v}] prints. *)
Definition py_str (v : json) : string :=
  match v with
  | JStr s => s
  | _ => py_repr v
  end.

(** One character of a string literal of [json.dumps] (with its default
    [ensure_ascii=True]). *)
Definition escape_char (c : ascii) : string :=
  if Ascii.eqb c dquote then String "\" (String dquote "")
  else if Ascii.eqb c "\" then "\\"
  else if code c =? 10 then "\n"
  else if code c =? 13 then "\r"
  else if code c =? 9 then "\t"
  else if code c =? 12 then "\f"
  else if code c =? 8 then "\b"
  else if (code c <? 32) || (126 <? code c) then "\u00" ++ hex2 (code c)
  else String c "".

Fixpoint escape (s : string) : string :=
  match s with
  | EmptyString => ""
  | String c rest => escape_char c ++ escape rest
  end.

Definition encode_string (s : string) : string :=
  String dquote (escape s) ++ String dquote "".

Definition encode_float (r : string) : string :=
  if String.eqb r "nan" then "NaN"
  else if String.eqb r "inf" then "Infinity"
  else if String.eqb r "-inf" then "-Infinity"
  else r.

(** [json.dumps(v)] with its default separators. *)
Fixpoint dumps (v : json) : string :=
  match v with
  | JNull => "null"
  | JBool true => "true"
  | JBool false => "false"
  | JInt n => of_Z n
  | JFloat r => encode_float r
  | JStr s => encode_string s
  | JArr items => "[" ++ join ", " (map dumps items) ++ "]"
  | JObj members =>
      "{" ++ join ", " (map (fun kv : string * json =>
                               let (k, x) := kv in encode_string k ++ ": " ++ dumps x)
                            members) ++ "}"
  end.

End Json.

(* ===================================================================== *)
(** * [httpx]: requests, responses and the exceptions in play *)
(* ===================================================================== *)

(** What [client.post] is called with. *)
Record Request : Type := mkRequest {
  req_url : string;
  req_headers : list (string * string);
  req_json : json;
  req_timeout : Z
}.

(** What [response.json()] does: it returns the decoded body, or raises
    [json.JSONDecodeError] with a message. *)
Inductive Decoded : Type :=
| Parsed (v : json)
| Undecodable (msg : string).

(** An [httpx.Response], as far as the server reads it. *)
Record Response : Type := mkResponse {
  status_code : Z;
  headers : list (string * string);
  text : string;
  body : Decoded
}.

(** The classes of [Exception] other than the two of [httpx] that the
    server names in an [except] clause. *)
Inductive fault_class : Type :=
| JSONDecodeError
| TypeError
| ValueError
| KeyError
| IndexError
| OtherException.

(** A raised exception. [RequestError] stands for [httpx.RequestError] and
    its subclasses (timeouts, connection and protocol errors); a [detail]
    is the text [str(e)]. *)
Inductive exn : Type :=
| RequestError (detail : string)
| HTTPStatusError (response : Response)
| Fault (cls : fault_class) (detail : string).

(** The result of running Python code: a value, or an exception raised. *)
Inductive pyres (A : Type) : Type :=
| Return (a : A)
| Raise (e : exn).

Arguments Return {A} a.
Arguments Raise {A} e.

(** What the remote endpoint does with a request: it answers, or the call
    fails with an exception. *)
Inductive Outcome : Type :=
| Responds (r : Response)
| Fails (e : exn).

Module Httpx.

Import PyStr.

(** [headers.get(name)]: names compare without case; the values of a
    repeated header are joined by a comma. *)
Definition get (name : string) (hs : list (string * string)) : option string :=
  match filter (fun kv : string * string => String.eqb (lower (fst kv)) (lower name)) hs with
  | [] => None
  | found => Some (join ", " (map snd found))
  end.

(** [response.is_success] *)
Definition is_success (r : Response) : bool :=
  (200 <=? status_code r) && (status_code r <=? 299).

(** [response.raise_for_status()] *)
Definition raise_for_status (r : Response) : pyres unit :=
  if is_success r then Return tt else Raise (HTTPStatusError r).

(** [response.json()] *)
Definition json (r : Response) : pyres json :=
  match body r with
  | Parsed v => Return v
  | Undecodable msg => Raise (Fault JSONDecodeError msg)
  end.

End Httpx.

(* ===================================================================== *)
(** * Python operators that can raise *)
(* ===================================================================== *)

Module PyOps.

Import PyStr Json.

(** [int(s)] *)
Definition int (s : string) : pyres Z :=
  match parse_int s with
  | IntValue n => Return n
  | IntInvalid =>
      Raise (Fault ValueError
               ("invalid literal for int() with base 10: " ++ take 200 (repr s)))
  | IntTooLong digits =>
      Raise (Fault ValueError
               ("Exceeds the limit (" ++ of_Z int_max_str_digits
                ++ " digits) for integer string conversion: value has "
                ++ of_Z digits
                ++ " digits; use sys.set_int_max_str_digits() to increase the limit"))
  end.

(** [x == key] for a string [key]. *)
Definition eq_str (key : string) (x : json) : bool :=
  match x with
  | JStr s => String.eqb s key
  | _ => false
  end.

(** [key in v] for a string [key]. *)
Definition contains (key : string) (v : json) : pyres bool :=
  match v with
  | JObj members => Return (has_key key members)
  | JArr items => Return (existsb (eq_str key) items)
  | JStr s => Return (PyStr.contains key s)
  | _ => Raise (Fault TypeError
                  ("argument of type '" ++ type_name v ++ "' is not iterable"))
  end.

Definition not_subscriptable (v : json) : exn :=
  Fault TypeError ("'" ++ type_name v ++ "' object is not subscriptable").

(** [v[key]] for a string [key]. *)
Definition getitem (v : json) (key : string) : pyres json :=
  match v with
  | JObj members =>
      match lookup key members with
      | Some x => Return x
      | None => Raise (Fault KeyError (repr key))
      end
  | JArr _ => Raise (Fault TypeError "list indices must be integers or slices, not str")
  | JStr _ => Raise (Fault TypeError "string indices must be integers, not 'str'")
  | _ => Raise (not_subscriptable v)
  end.

(** [v[0]] *)
Definition getitem0 (v : json) : pyres json :=
  match v with
  | JArr (x :: _) => Return x
  | JArr [] => Raise (Fault IndexError "list index out of range")
  | JStr (String c _) => Return (JStr (String c ""))
  | JStr EmptyString => Raise (Fault IndexError "string index out of range")
  | JObj _ => Raise (Fault KeyError "0")
  | _ => Raise (not_subscriptable v)
  end.

End PyOps.

(* ===================================================================== *)
(** * The process state and the monad of Python code *)
(* ===================================================================== *)

(** Levels of the [logging] module. *)
Inductive level : Type := DEBUG | INFO | WARNING | ERROR | CRITICAL.

Definition level_no (l : level) : Z :=
  match l with
  | DEBUG => 10
  | INFO => 20
  | WARNING => 30
  | ERROR => 40
  | CRITICAL => 50
  end.

(** The state of the server process: the module global [GITHUB_TOKEN]
    (what [os.environ.get] gave at import), the records written to the
    log stream, and the requests sent to the network so far. *)
Record World : Type := mkWorld {
  GITHUB_TOKEN : option string;
  log : list (level * string);
  sent : list Request
}.

(** A computation: from a state to a value or an exception, and the state
    left behind (an exception does not undo what was logged or sent). *)
Definition Py (A : Type) : Type := World -> pyres A * World.

Definition ret {A : Type} (a : A) : Py A := fun w => (Return a, w).

Definition raise {A : Type} (e : exn) : Py A := fun w => (Raise e, w).

Definition bind {A B : Type} (m : Py A) (k : A -> Py B) : Py B :=
  fun w =>
    match m w with
    | (Return a, w') => k a w'
    | (Raise e, w') => (Raise e, w')
    end.

(** A pure operation that may raise. *)
Definition lift {A : Type} (r : pyres A) : Py A := fun w => (r, w).

(** [try: m  except Exception as e: handler e]; an exception raised by the
    handler itself is not caught. *)
Definition try_except {A : Type} (m : Py A) (handler : exn -> Py A) : Py A :=
  fun w =>
    match m w with
    | (Return a, w') => (Return a, w')
    | (Raise e, w') => handler e w'
    end.

Declare Scope py_scope.
Delimit Scope py_scope with py.
Notation "x <- m ;; k" := (bind m (fun x => k))
  (at level 61, m at next level, right associativity) : py_scope.
Notation "m ;; k" := (bind m (fun _ => k))
  (at level 61, right associativity) : py_scope.
Local Open Scope py_scope.

(** Reading the module global. *)
Definition read_token : Py (option string) := fun w => (Return (GITHUB_TOKEN w), w).

(** [logging.basicConfig(level=logging.INFO, ...)]: a record under [INFO]
    is dropped, the others go to the stream. *)
Definition logging_log (lvl : level) (msg : string) : Py unit :=
  fun w =>
    (Return tt,
     if level_no INFO <=? level_no lvl
     then mkWorld (GITHUB_TOKEN w) (log w ++ [(lvl, msg)]) (sent w)
     else w).

(** [await client.post(url, headers=..., json=..., timeout=...)] against
    the endpoint [remote]: the request goes out, and the call returns the
    response or raises. *)
Definition client_post (remote : Request -> Outcome)
    (url : string) (hs : list (string * string)) (payload : json) (timeout : Z)
  : Py Response :=
  fun w =>
    let req := mkRequest url hs payload timeout in
    (match remote req with
     | Responds r => Return r
     | Fails e => Raise e
     end,
     mkWorld (GITHUB_TOKEN w) (log w) (sent w ++ [req])).

(** [bool(GITHUB_TOKEN)] *)
Definition token_truthy (t : option string) : bool :=
  match t with
  | Some s => PyStr.truthy s
  | None => false
  end.

(** [bool(variables)] for an optional dict. *)
Definition variables_truthy (variables : option (list (string * json))) : bool :=
  match variables with
  | Some (_ :: _) => true
  | _ => false
  end.

(** The argument [variables] as a value: a dict, or [None]. *)
Definition variables_value (variables : option (list (string * json))) : json :=
  match variables with
  | Some vars => JObj vars
  | None => JNull
  end.

(** What an f-string field prints for an optional string. *)
Definition str_opt (o : option string) : string :=
  match o with
  | Some s => s
  | None => "None"
  end.

(* ===================================================================== *)
(** * The server *)
(* ===================================================================== *)

Definition GITHUB_GRAPHQL_API_URL : string := "https://api.github.com/graphql".

(** The dict literal with one error, [errors: [ {message: msg} ]]. *)
Definition errors_dict (msg : string) : json :=
  JObj [("errors", JArr [JObj [("message", JStr msg)]])].

Section Relay.

(** The remote endpoint. *)
Variable remote : Request -> Outcome.

(** The rate limit lines of [make_github_request], after the response has
    arrived. *)
Definition log_rate_limit (response : Response) : Py unit :=
  let rate_limit := Httpx.get "X-RateLimit-Limit" (headers response) in
  let rate_remaining := Httpx.get "X-RateLimit-Remaining" (headers response) in
  let rate_reset := Httpx.get "X-RateLimit-Reset" (headers response) in
  match rate_limit, rate_remaining with
  | Some limit, Some remaining =>
      logging_log INFO ("GitHub Rate Limit: " ++ remaining ++ "/" ++ limit
                        ++ " remaining. Resets at timestamp "
                        ++ str_opt rate_reset ++ ".") ;;
      n <- lift (PyOps.int remaining) ;;
      if n <? 50
      then logging_log WARNING ("GitHub Rate Limit low: " ++ remaining ++ " remaining.")
      else ret tt
  | _, _ => ret tt
  end.

(** The body of the [except httpx.HTTPStatusError as e] clause, given
    [e.response]. *)
Definition on_status_error (response : Response) : Py json :=
  logging_log ERROR ("HTTP Status Error: " ++ PyStr.of_Z (status_code response)
                     ++ " - Response: " ++ PyStr.take 500 (text response)) ;;
  let error_detail := "HTTP Status Error: " ++ PyStr.of_Z (status_code response) in
  error_detail <-
    try_except
      (err_resp <- lift (Httpx.json response) ;;
       has_errors <- lift (PyOps.contains "errors" err_resp) ;;
       if has_errors then
         errors <- lift (PyOps.getitem err_resp "errors") ;;
         first <- lift (PyOps.getitem0 errors) ;;
         message <- lift (PyOps.getitem first "message") ;;
         ret (error_detail ++ " - " ++ Json.py_str message)
       else
         has_message <- lift (PyOps.contains "message" err_resp) ;;
         if has_message then
           message <- lift (PyOps.getitem err_resp "message") ;;
           ret (error_detail ++ " - " ++ Json.py_str message)
         else ret error_detail)
      (fun e =>
         match e with
         | Fault JSONDecodeError _ => ret error_detail
         | _ => raise e
         end) ;;
  ret (errors_dict error_detail).

(** The lines of the [try] block from [raise_for_status] to [return]. *)
Definition decode_response (response : Response) : Py json :=
  lift (Httpx.raise_for_status response) ;;
  logging_log DEBUG ("GitHub response status: " ++ PyStr.of_Z (status_code response)) ;;
  result <- lift (Httpx.json response) ;;
  has_errors <- lift (PyOps.contains "errors" result) ;;
  (if has_errors then
     errors <- lift (PyOps.getitem result "errors") ;;
     logging_log WARNING ("GraphQL Errors: " ++ Json.py_str errors)
   else ret tt) ;;
  ret result.

(** The lines of the [try] block after the response has arrived. *)
Definition on_response (response : Response) : Py json :=
  log_rate_limit response ;;
  decode_response response.

(** The three [except] clauses of the [try] block, in their order. *)
Definition on_exception (e : exn) : Py json :=
  match e with
  | RequestError detail =>
      logging_log ERROR ("HTTP Request Error: " ++ detail) ;;
      ret (errors_dict ("HTTP Request Error connecting to GitHub: " ++ detail))
  | HTTPStatusError response => on_status_error response
  | Fault _ detail =>
      logging_log ERROR ("Generic Error during GitHub request: " ++ detail) ;;
      ret (errors_dict ("An unexpected error occurred: " ++ detail))
  end.

Definition make_github_request (query : string)
    (variables : option (list (string * json))) : Py json :=
  token <- read_token ;;
  if negb (token_truthy token) then
    logging_log ERROR "GitHub API token is missing. Cannot make request." ;;
    ret (errors_dict "Server missing GitHub API token.")
  else
    let hs := [ ("Authorization", "Bearer " ++ str_opt token);
                ("Content-Type", "application/json");
                ("User-Agent", "MCPGitHubServer/0.1.0") ] in
    let payload := [("query", JStr query)] in
    let payload :=
      if variables_truthy variables
      then (payload ++ [("variables", variables_value variables)])%list
      else payload in
    try_except
      (logging_log DEBUG ("Sending request to GitHub: " ++ PyStr.take 100 query ++ "...") ;;
       response <- client_post remote GITHUB_GRAPHQL_API_URL hs (JObj payload) 30 ;;
       on_response response)
      on_exception.

Definition github_execute_graphql (query : string)
    (variables : option (list (string * json))) : Py string :=
  if negb (PyStr.truthy query) then
    logging_log WARNING "Received empty query for github_execute_graphql." ;;
    ret (Json.dumps (errors_dict "Query cannot be empty."))
  else
    logging_log INFO ("Executing github_execute_graphql with query starting: "
                      ++ PyStr.take 50 query ++ "...") ;;
    result <- make_github_request query variables ;;
    ret (Json.dumps result).

End Relay.

(* ===================================================================== *)
(** * The script around the two functions *)
(* ===================================================================== *)

(** [os.environ.get(name)] on the environment of the process, a mapping
    from names to values. *)
Fixpoint environ_get (name : string) (environ : list (string * string))
  : option string :=
  match environ with
  | [] => None
  | (k, v) :: rest => if String.eqb k name then Some v else environ_get name rest
  end.

(** [list(os.environ.keys())], as an f-string field prints it. *)
Definition environ_keys_repr (environ : list (string * string)) : string :=
  Json.py_repr (JArr (map (fun kv : string * string => JStr (fst kv)) environ)).

(** The assignment to the module global. *)
Definition assign_token (t : option string) : Py unit :=
  fun w => (Return tt, mkWorld t (log w) (sent w)).

(** The statements the module runs when it is loaded, up to the creation
    of the server object (which is taken to succeed). *)
Definition module_level (environ : list (string * string)) : Py unit :=
  assign_token (environ_get "GITHUB_TOKEN" environ) ;;
  token <- read_token ;;
  (if negb (token_truthy token) then
     logging_log ERROR "GitHub token not found in environment variables" ;;
     logging_log WARNING ("Available environment variables: "
                          ++ environ_keys_repr environ)
   else
     logging_log INFO ("Successfully loaded GitHub token starting with: "
                       ++ PyStr.take 4 (str_opt token))) ;;
  logging_log INFO "GitHub GraphQL MCP Server initialized.".

(** The block under [if __name__ == "__main__"], given what
    [mcp.run(transport='stdio')] does. The value returned is the exit
    status of the process: the argument of [sys.exit], or 0 when the script
    reaches its end. *)
Definition main (mcp_run : Py unit) : Py Z :=
  logging_log INFO "Attempting to run GitHub GraphQL MCP server via stdio..." ;;
  token <- read_token ;;
  if negb (token_truthy token) then
    logging_log CRITICAL "FATAL: Cannot start server, GitHub token missing." ;;
    ret 1
  else
    logging_log INFO ("Configured for GitHub GraphQL API with token: "
                      ++ PyStr.take 4 (str_opt token) ++ "...") ;;
    try_except
      (mcp_run ;;
       logging_log INFO "Server stopped." ;;
       ret 0)
      (fun _ =>
         logging_log ERROR "Error running server" ;;
         ret 1).

(** The script run as a program: the module is loaded, then [main] runs. *)
Definition script (environ : list (string * string)) (mcp_run : Py unit) : Py Z :=
  module_level environ ;;
  main mcp_run.

(** The state of a process that has run nothing yet. *)
Definition fresh : World := mkWorld None [] [].

(* ===================================================================== *)
(** * Vocabulary of the properties *)
(* ===================================================================== *)

(** [execute query variables] of the specification is
    [github_execute_graphql]; what it gives back and what it leaves in the
    process state are the two components of a run. *)
Definition result_of {A : Type} (run : pyres A * World) : pyres A := fst run.

Definition state_after {A : Type} (run : pyres A * World) : World := snd run.

(** The request the relay builds for a credential, a query and the
    variables (steps 2 and 3 of the design): the fixed URL, the three
    headers, the body and the timeout. *)
Definition outgoing (token : option string) (query : string)
    (variables : option (list (string * json))) : Request :=
  mkRequest GITHUB_GRAPHQL_API_URL
    [ ("Authorization", "Bearer " ++ str_opt token);
      ("Content-Type", "application/json");
      ("User-Agent", "MCPGitHubServer/0.1.0") ]
    (JObj (("query", JStr query)
           :: match variables with
              | Some (kv :: rest) => [("variables", JObj (kv :: rest))]
              | _ => []
              end))
    30.

(** The rate limit headers of a response can be read without a fault: when
    both the limit and the remaining count are there, the remaining count
    is an integer literal. *)
Definition rate_limit_readable (hs : list (string * string)) : bool :=
  match Httpx.get "X-RateLimit-Limit" hs, Httpx.get "X-RateLimit-Remaining" hs with
  | Some _, Some remaining =>
      match PyStr.parse_int remaining with
      | PyStr.IntValue _ => true
      | _ => false
      end
  | _, _ => true
  end.


(** The records the module logs when it is loaded. *)
Definition module_records (environ : list (string * string))
  : list (level * string) :=
  (if token_truthy (environ_get "GITHUB_TOKEN" environ)
   then [ (INFO, "Successfully loaded GitHub token starting with: "
                 ++ PyStr.take 4 (str_opt (environ_get "GITHUB_TOKEN" environ))) ]
   else [ (ERROR, "GitHub token not found in environment variables");
          (WARNING, "Available environment variables: "
                    ++ environ_keys_repr environ) ])
  ++ [ (INFO, "GitHub GraphQL MCP Server initialized.") ].

(** The state in which [main] starts the server. *)
Definition serving_state (w : World) : World :=
  mkWorld (GITHUB_TOKEN w)
    (log w ++ [ (INFO, "Attempting to run GitHub GraphQL MCP server via stdio...");
                (INFO, "Configured for GitHub GraphQL API with token: "
                       ++ PyStr.take 4 (str_opt (GITHUB_TOKEN w)) ++ "...") ])
    (sent w).


(* ===================================================================== *)
(** * Sample processes, endpoints and bodies *)
(* ===================================================================== *)

(** A process with a credential, and one without. *)
Definition with_token : World := mkWorld (Some "ghp_0123456789abcdef") [] [].

Definition without_token : World := mkWorld None [] [].

Definition viewer_query : string := "query { viewer { login } }".

(** An endpoint that cannot be reached: every call times out. *)
Definition unreachable : Request -> Outcome :=
  fun _ => Fails (RequestError "timed out").

(** An endpoint that answers every request with the same response. *)
Definition answering (response : Response) : Request -> Outcome :=
  fun _ => Responds response.

(** A response whose body is the JSON text of [v]. *)
Definition json_response (status : Z) (hs : list (string * string)) (v : json)
  : Response :=
  mkResponse status hs (Json.dumps v) (Parsed v).

(** The body [data: {repository: {name: Hello-World}}]. *)
Definition hello_world : json :=
  JObj [("data", JObj [("repository", JObj [("name", JStr "Hello-World")])])].

(** The body [message: Bad credentials]. *)
Definition bad_credentials : json := JObj [("message", JStr "Bad credentials")].

(** The body [errors: []]. *)
Definition no_errors_listed : json := JObj [("errors", JArr [])].

(** A validation error in the style of GitHub's REST API: the entries of
    [errors] name a resource, a field and a code, and carry no message. *)
Definition validation_failed : json :=
  JObj [ ("message", JStr "Validation Failed");
         ("errors", JArr [JObj [ ("resource", JStr "Issue");
                                 ("field", JStr "title");
                                 ("code", JStr "missing_field") ]]) ].

(** Another process with a credential. *)
Definition with_other_token : World := mkWorld (Some "ghp_fedcba9876543210") [] [].

(** An endpoint to which the payload cannot be sent. *)
Definition unserialisable : Request -> Outcome :=
  fun _ => Fails (Fault TypeError "Object of type set is not JSON serializable").


(** Rate limit headers with 12 calls left, and with no count at all. *)
Definition nearly_exhausted : list (string * string) :=
  [("X-RateLimit-Limit", "5000"); ("X-RateLimit-Remaining", "12");
   ("X-RateLimit-Reset", "1700000000")].

Definition not_counted : list (string * string) :=
  [("X-RateLimit-Limit", "5000"); ("X-RateLimit-Remaining", "unlimited")].

(* ===================================================================== *)
(** * Disciplines of computations *)
(* ===================================================================== *)

(** [sends reqs m]: whatever the state and however it ends, [m] sends the
    requests [reqs] to the network, and nothing else. *)
Definition sends {A : Type} (reqs : list Request) (m : Py A) : Prop :=
  forall w, sent (snd (m w)) = (sent w ++ reqs)%list.

(** [quiet m]: [m] performs no network I/O. *)
Definition quiet {A : Type} (m : Py A) : Prop := sends [] m.

(** [steady m]: [m] reads nothing of the state but the credential, and
    leaves the credential as it is. *)
Definition steady {A : Type} (m : Py A) : Prop :=
  forall w1 w2,
    GITHUB_TOKEN w1 = GITHUB_TOKEN w2 ->
    fst (m w1) = fst (m w2) /\ GITHUB_TOKEN (snd (m w1)) = GITHUB_TOKEN w1.




(** [blind m]: [m] reads nothing of the state but the log, so neither the
    credential nor what was sent before; what it returns and what it logs
    are the same in two states with the same log. *)
Definition blind {A : Type} (m : Py A) : Prop :=
  forall w1 w2,
    log w1 = log w2 ->
    fst (m w1) = fst (m w2) /\ log (snd (m w1)) = log (snd (m w2)).

Section Disciplines.

Context {A B : Type}.

Lemma quiet_ret (a : A) : quiet (ret a).
Proof. intros w. cbn. now rewrite app_nil_r. Qed.

Lemma quiet_raise (e : exn) : quiet (@raise A e).
Proof. intros w. cbn. now rewrite app_nil_r. Qed.

Lemma quiet_lift (r : pyres A) : quiet (lift r).
Proof. intros w. cbn. now rewrite app_nil_r. Qed.

Lemma quiet_bind (m : Py A) (k : A -> Py B) :
  quiet m -> (forall a, quiet (k a)) -> quiet (bind m k).
Proof.
  intros Hm Hk w. unfold bind. specialize (Hm w).
  destruct (m w) as [[a|e] w']; cbn in *.
  - rewrite (Hk a w'), Hm. now rewrite !app_nil_r.
  - exact Hm.
Qed.

Lemma quiet_try (m : Py A) (h : exn -> Py A) :
  quiet m -> (forall e, quiet (h e)) -> quiet (try_except m h).
Proof.
  intros Hm Hh w. unfold try_except. specialize (Hm w).
  destruct (m w) as [[a|e] w']; cbn in *.
  - exact Hm.
  - rewrite (Hh e w'), Hm. now rewrite !app_nil_r.
Qed.

Lemma sends_bind (reqs : list Request) (m : Py A) (k : A -> Py B) :
  sends reqs m -> (forall a, quiet (k a)) -> sends reqs (bind m k).
Proof.
  intros Hm Hk w. unfold bind. specialize (Hm w).
  destruct (m w) as [[a|e] w']; cbn in *.
  - rewrite (Hk a w'), Hm. now rewrite app_nil_r.
  - exact Hm.
Qed.

Lemma sends_try (reqs : list Request) (m : Py A) (h : exn -> Py A) :
  sends reqs m -> (forall e, quiet (h e)) -> sends reqs (try_except m h).
Proof.
  intros Hm Hh w. unfold try_except. specialize (Hm w).
  destruct (m w) as [[a|e] w']; cbn in *.
  - exact Hm.
  - rewrite (Hh e w'), Hm. now rewrite app_nil_r.
Qed.

Lemma steady_ret (a : A) : steady (ret a).
Proof. intros w1 w2 _. split; reflexivity. Qed.

Lemma steady_raise (e : exn) : steady (@raise A e).
Proof. intros w1 w2 _. split; reflexivity. Qed.

Lemma steady_lift (r : pyres A) : steady (lift r).
Proof. intros w1 w2 _. split; reflexivity. Qed.

Lemma steady_bind (m : Py A) (k : A -> Py B) :
  steady m -> (forall a, steady (k a)) -> steady (bind m k).
Proof.
  intros Hm Hk w1 w2 Hw. unfold bind.
  destruct (Hm w1 w2 Hw) as [Hr Ht1].
  destruct (Hm w2 w1 (eq_sym Hw)) as [_ Ht2].
  destruct (m w1) as [[a1|e1] w1'], (m w2) as [[a2|e2] w2']; cbn in *;
    try discriminate.
  - injection Hr as ->.
    assert (Hw' : GITHUB_TOKEN w1' = GITHUB_TOKEN w2') by congruence.
    destruct (Hk a2 w1' w2' Hw') as [Hr' Ht']. split; congruence.
  - injection Hr as ->. split; [reflexivity | assumption].
Qed.

Lemma steady_try (m : Py A) (h : exn -> Py A) :
  steady m -> (forall e, steady (h e)) -> steady (try_except m h).
Proof.
  intros Hm Hh w1 w2 Hw. unfold try_except.
  destruct (Hm w1 w2 Hw) as [Hr Ht1].
  destruct (Hm w2 w1 (eq_sym Hw)) as [_ Ht2].
  destruct (m w1) as [[a1|e1] w1'], (m w2) as [[a2|e2] w2']; cbn in *;
    try discriminate.
  - split; assumption.
  - injection Hr as ->.
    assert (Hw' : GITHUB_TOKEN w1' = GITHUB_TOKEN w2') by congruence.
    destruct (Hh e2 w1' w2' Hw') as [Hr' Ht']. split; congruence.
Qed.

End Disciplines.

Lemma quiet_logging_log (lvl : level) (msg : string) : quiet (logging_log lvl msg).
Proof.
  intros w. destruct lvl; cbn; now rewrite app_nil_r.
Qed.

Lemma steady_logging_log (lvl : level) (msg : string) : steady (logging_log lvl msg).
Proof.
  intros w1 w2 _. destruct lvl; split; reflexivity.
Qed.

(** A record logged first changes nothing to what is sent. *)
Lemma sends_after_log {A : Type} (reqs : list Request) (lvl : level) (msg : string)
    (k : unit -> Py A) :
  sends reqs (k tt) -> sends reqs (bind (logging_log lvl msg) k).
Proof.
  intros Hk w. unfold bind, logging_log.
  destruct (level_no INFO <=? level_no lvl); [|apply Hk].
  exact (Hk (mkWorld (GITHUB_TOKEN w) (log w ++ [(lvl, msg)]) (sent w))).
Qed.

Lemma quiet_read_token : quiet read_token.
Proof. intros w. cbn. now rewrite app_nil_r. Qed.

Lemma steady_read_token : steady read_token.
Proof. intros w1 w2 Hw. cbn. split; congruence. Qed.

Lemma sends_client_post (remote : Request -> Outcome) (url : string)
    (hs : list (string * string)) (payload : json) (timeout : Z) :
  sends [mkRequest url hs payload timeout] (client_post remote url hs payload timeout).
Proof. intros w. reflexivity. Qed.

Lemma steady_client_post (remote : Request -> Outcome) (url : string)
    (hs : list (string * string)) (payload : json) (timeout : Z) :
  steady (client_post remote url hs payload timeout).
Proof. intros w1 w2 _. split; reflexivity. Qed.

Create HintDb py discriminated.

#[export] Hint Resolve quiet_ret quiet_raise quiet_lift quiet_logging_log
  quiet_read_token steady_ret steady_raise steady_lift steady_logging_log
  steady_read_token steady_client_post : py.

(** Breaks a goal about a composed computation into its parts, following
    the [if]s and [match]es of the code. *)
Ltac py_parts :=
  repeat first
    [ progress intros
    | solve [auto with py]
    | apply quiet_bind | apply quiet_try
    | apply steady_bind | apply steady_try
    | match goal with
      | |- context [if ?c then _ else _] => destruct c
      | |- context [match ?x with _ => _ end] => destruct x
      end ].

(* ===================================================================== *)
(** * The parts of the two functions *)
(* ===================================================================== *)

Lemma truthy_nonempty (s : string) : s <> "" -> PyStr.truthy s = true.
Proof. destruct s; [congruence | reflexivity]. Qed.

Lemma quiet_log_rate_limit (response : Response) : quiet (log_rate_limit response).
Proof. unfold log_rate_limit. py_parts. Qed.

Lemma steady_log_rate_limit (response : Response) : steady (log_rate_limit response).
Proof. unfold log_rate_limit. py_parts. Qed.

Lemma quiet_on_status_error (response : Response) : quiet (on_status_error response).
Proof. unfold on_status_error. py_parts. Qed.

Lemma steady_on_status_error (response : Response) : steady (on_status_error response).
Proof. unfold on_status_error. py_parts. Qed.

#[export] Hint Resolve quiet_log_rate_limit steady_log_rate_limit
  quiet_on_status_error steady_on_status_error : py.

Lemma quiet_decode_response (response : Response) : quiet (decode_response response).
Proof. unfold decode_response. py_parts. Qed.

Lemma steady_decode_response (response : Response) : steady (decode_response response).
Proof. unfold decode_response. py_parts. Qed.

#[export] Hint Resolve quiet_decode_response steady_decode_response : py.

Lemma quiet_on_response (response : Response) : quiet (on_response response).
Proof. unfold on_response. py_parts. Qed.

Lemma steady_on_response (response : Response) : steady (on_response response).
Proof. unfold on_response. py_parts. Qed.

Lemma quiet_on_exception (e : exn) : quiet (on_exception e).
Proof. unfold on_exception. py_parts. Qed.

Lemma steady_on_exception (e : exn) : steady (on_exception e).
Proof. unfold on_exception. py_parts. Qed.

#[export] Hint Resolve quiet_on_response steady_on_response
  quiet_on_exception steady_on_exception : py.

(** With readable headers the rate limit lines return. *)
Lemma log_rate_limit_returns (response : Response) (w : World) :
  rate_limit_readable (headers response) = true ->
  fst (log_rate_limit response w) = Return tt.
Proof.
  unfold rate_limit_readable, log_rate_limit.
  destruct (Httpx.get "X-RateLimit-Limit" (headers response)) as [limit|];
    [|reflexivity].
  destruct (Httpx.get "X-RateLimit-Remaining" (headers response)) as [remaining|];
    [|reflexivity].
  unfold bind, lift, logging_log, ret, PyOps.int. cbn.
  destruct (PyStr.parse_int remaining) as [n| |d]; try discriminate.
  intros _. cbn. destruct (n <? 50); reflexivity.
Qed.

(** With readable headers, what follows the rate limit lines decides. *)
Lemma on_response_readable (response : Response) (w : World) :
  rate_limit_readable (headers response) = true ->
  exists w',
    GITHUB_TOKEN w' = GITHUB_TOKEN w
    /\ on_response response w = decode_response response w'.
Proof.
  intros Hrate. exists (snd (log_rate_limit response w)).
  split; [apply (steady_log_rate_limit response w w eq_refl)|].
  unfold on_response, bind.
  pose proof (log_rate_limit_returns response w Hrate) as Hlog.
  destruct (log_rate_limit response w) as [[[]|e] w1]; [reflexivity | discriminate Hlog].
Qed.

(** From [raise_for_status] on, with the [except] clauses around, the
    headers of the response are not read. *)
Lemma decode_reads_no_header (r1 r2 : Response) (w1 w2 : World) :
  status_code r1 = status_code r2 ->
  text r1 = text r2 ->
  body r1 = body r2 ->
  GITHUB_TOKEN w1 = GITHUB_TOKEN w2 ->
  fst (try_except (decode_response r1) on_exception w1)
  = fst (try_except (decode_response r2) on_exception w2).
Proof.
  destruct r1 as [s1 h1 t1 b1], r2 as [s2 h2 t2 b2]. cbn.
  intros -> -> -> Hw.
  unfold decode_response, Httpx.raise_for_status.
  destruct (Httpx.is_success (mkResponse s2 h1 t2 b2)) eqn:Hok;
    unfold Httpx.is_success in *; cbn [status_code] in *; rewrite !Hok.
  - match goal with
    | |- fst (?m w1) = fst (_ w2) =>
        assert (Hs : steady m) by py_parts; exact (proj1 (Hs w1 w2 Hw))
    end.
  - exact (proj1 (steady_on_status_error (mkResponse s2 h1 t2 b2) w1 w2 Hw)).
Qed.

(** With readable headers, the rate limit lines may be left out of the
    [try] block. *)
Lemma handled_response_readable (response : Response) (w : World) :
  rate_limit_readable (headers response) = true ->
  exists w',
    GITHUB_TOKEN w' = GITHUB_TOKEN w
    /\ try_except (on_response response) on_exception w
       = try_except (decode_response response) on_exception w'.
Proof.
  intros Hrate.
  destruct (on_response_readable response w Hrate) as (w' & Htok & Hrun).
  exists w'. split; [exact Htok|]. unfold try_except. now rewrite Hrun.
Qed.











Section Whole.

Variable remote : Request -> Outcome.

Lemma steady_make_github_request (query : string)
    (variables : option (list (string * json))) :
  steady (make_github_request remote query variables).
Proof. unfold make_github_request. py_parts. Qed.

#[local] Hint Resolve steady_make_github_request : py.

Lemma steady_github_execute_graphql (query : string)
    (variables : option (list (string * json))) :
  steady (github_execute_graphql remote query variables).
Proof. unfold github_execute_graphql. py_parts. Qed.

(** Without a credential, [make_github_request] performs no network I/O. *)
Lemma make_github_request_no_token (query : string)
    (variables : option (list (string * json))) (w : World) :
  token_truthy (GITHUB_TOKEN w) = false ->
  exists w',
    make_github_request remote query variables w
    = (Return (errors_dict "Server missing GitHub API token."), w')
    /\ sent w' = sent w.
Proof.
  intros Ht. unfold make_github_request, bind, read_token.
  rewrite Ht. cbn. eexists. split; reflexivity.
Qed.

(** With a credential, [make_github_request] sends one request, the one of
    [outgoing]. *)
Lemma make_github_request_sends (query : string)
    (variables : option (list (string * json))) (w : World) :
  token_truthy (GITHUB_TOKEN w) = true ->
  sent (snd (make_github_request remote query variables w))
  = (sent w ++ [outgoing (GITHUB_TOKEN w) query variables])%list.
Proof.
  intros Ht. unfold make_github_request.
  unfold bind at 1. unfold read_token at 1. rewrite Ht. cbn [negb].
  apply sends_try; [|py_parts].
  apply sends_after_log.
  apply sends_bind; [|py_parts].
  destruct variables as [[|kv rest]|]; apply sends_client_post.
Qed.

(** With a credential, the request goes out and the outcome decides what
    runs next. *)
Lemma make_github_request_run (query : string)
    (variables : option (list (string * json))) (w : World) :
  token_truthy (GITHUB_TOKEN w) = true ->
  make_github_request remote query variables w
  = let req := outgoing (GITHUB_TOKEN w) query variables in
    let w1 := mkWorld (GITHUB_TOKEN w) (log w) (sent w ++ [req]) in
    match remote req with
    | Responds response => try_except (on_response response) on_exception w1
    | Fails e => on_exception e w1
    end.
Proof.
  intros Ht. unfold make_github_request.
  unfold bind at 1. unfold read_token at 1. rewrite Ht. cbn [negb].
  unfold try_except at 1. unfold bind at 1. unfold logging_log at 1.
  cbn [level_no Z.leb Z.compare Pos.compare Pos.compare_cont].
  unfold bind at 1. unfold client_post, outgoing.
  destruct variables as [[|kv rest]|]; cbn [variables_truthy variables_value app];
    match goal with
    | |- context [remote ?r] => destruct (remote r) as [response|e]
    end; cbn [GITHUB_TOKEN log sent]; destruct w; reflexivity.
Qed.

(** An empty query: nothing is sent. *)
Lemma execute_empty_query (variables : option (list (string * json))) (w : World) :
  exists w',
    github_execute_graphql remote "" variables w
    = (Return (Json.dumps (errors_dict "Query cannot be empty.")), w')
    /\ sent w' = sent w.
Proof. eexists. split; reflexivity. Qed.

(** A query that is not empty: the result is the one of
    [make_github_request], serialised, and the network traffic is its own. *)
Lemma execute_nonempty_query (query : string)
    (variables : option (list (string * json))) (w : World) :
  query <> "" ->
  exists w1,
    GITHUB_TOKEN w1 = GITHUB_TOKEN w /\ sent w1 = sent w
    /\ github_execute_graphql remote query variables w
       = (match fst (make_github_request remote query variables w1) with
          | Return result => Return (Json.dumps result)
          | Raise e => Raise e
          end,
          snd (make_github_request remote query variables w1)).
Proof.
  intros Hq. unfold github_execute_graphql. rewrite (truthy_nonempty _ Hq).
  cbn [negb].
  exists (snd (logging_log INFO
                 ("Executing github_execute_graphql with query starting: "
                  ++ PyStr.take 50 query ++ "...") w)).
  split; [reflexivity | split; [reflexivity |]].
  unfold bind at 1. cbn [logging_log fst snd].
  unfold bind, ret.
  destruct (make_github_request remote query variables _) as [[result|e] w2];
    reflexivity.
Qed.

(** A query that is not empty, no credential: nothing is sent. *)
Lemma execute_no_token (query : string)
    (variables : option (list (string * json))) (w : World) :
  query <> "" ->
  token_truthy (GITHUB_TOKEN w) = false ->
  exists w',
    github_execute_graphql remote query variables w
    = (Return (Json.dumps (errors_dict "Server missing GitHub API token.")), w')
    /\ sent w' = sent w.
Proof.
  intros Hq Ht.
  destruct (execute_nonempty_query query variables w Hq)
    as (w1 & Htok & Hsent & Hrun).
  rewrite <- Htok in Ht.
  destruct (make_github_request_no_token query variables w1 Ht)
    as (w2 & Hreq & Hsent2).
  exists w2. rewrite Hrun, Hreq. split; [reflexivity | congruence].
Qed.

End Whole.

(* ===================================================================== *)
(** * Properties of the relay *)
(* ===================================================================== *)

Section Properties.

Variable remote : Request -> Outcome.

Local Abbreviation execute := (github_execute_graphql remote).

(** C5. With an empty query, whatever the variables, the credential and
    the endpoint, [execute] returns the serialised value
    [errors: [ {message: Query cannot be empty.} ]] and sends nothing to the
    network. *)
Theorem empty_query_rejected (variables : option (list (string * json))) (w : World) :
  result_of (execute "" variables w)
  = Return (Json.dumps
              (JObj [("errors", JArr [JObj [("message", JStr "Query cannot be empty.")]])]))
  /\ sent (state_after (execute "" variables w)) = sent w.
Proof.
  destruct (execute_empty_query remote variables w) as (w' & Hrun & Hsent).
  unfold result_of, state_after. rewrite Hrun. split; [reflexivity | exact Hsent].
Qed.

(** C6. With a query that is not empty and no credential configured,
    [execute] returns the serialised value
    [errors: [ {message: Server missing GitHub API token.} ]] and sends
    nothing to the network. *)
Theorem missing_token_reported (query : string)
    (variables : option (list (string * json))) (w : World) :
  query <> "" ->
  token_truthy (GITHUB_TOKEN w) = false ->
  result_of (execute query variables w)
  = Return (Json.dumps
              (JObj [("errors",
                      JArr [JObj [("message", JStr "Server missing GitHub API token.")]])]))
  /\ sent (state_after (execute query variables w)) = sent w.
Proof.
  intros Hq Ht.
  destruct (execute_no_token remote query variables w Hq Ht) as (w' & Hrun & Hsent).
  unfold result_of, state_after. rewrite Hrun. split; [reflexivity | exact Hsent].
Qed.

(** C7. With a credential and a query that is not empty, when the call to
    the endpoint fails at the network level with detail [detail], the
    result holds exactly one error, whose message is
    [HTTP Request Error connecting to GitHub: ] followed by [detail]. *)
Theorem transport_failure_reported (query : string)
    (variables : option (list (string * json))) (w : World) (detail : string) :
  query <> "" ->
  token_truthy (GITHUB_TOKEN w) = true ->
  remote (outgoing (GITHUB_TOKEN w) query variables) = Fails (RequestError detail) ->
  result_of (execute query variables w)
  = Return (Json.dumps
              (JObj [("errors",
                      JArr [JObj [("message",
                                   JStr ("HTTP Request Error connecting to GitHub: "
                                         ++ detail))]])])).
Proof.
  intros Hq Ht Hfail.
  destruct (execute_nonempty_query remote query variables w Hq)
    as (w1 & Htok & Hsent & Hrun).
  unfold result_of. rewrite Hrun.
  rewrite make_github_request_run by congruence.
  cbv zeta. rewrite Htok, Hfail. reflexivity.
Qed.

(** With a credential and a query that is not empty, exactly one request
    goes out: the one of [outgoing]. *)
Lemma execute_sends_outgoing (query : string)
    (variables : option (list (string * json))) (w : World) :
  query <> "" ->
  token_truthy (GITHUB_TOKEN w) = true ->
  sent (state_after (execute query variables w))
  = (sent w ++ [outgoing (GITHUB_TOKEN w) query variables])%list.
Proof.
  intros Hq Ht.
  destruct (execute_nonempty_query remote query variables w Hq)
    as (w1 & Htok & Hsent & Hrun).
  unfold state_after. rewrite Hrun. cbn [snd].
  rewrite make_github_request_sends by congruence.
  now rewrite Htok, Hsent.
Qed.

(** What a success response with an object for a body gives: the object. *)
Lemma decode_response_object (response : Response) (members : list (string * json))
    (w : World) :
  Httpx.is_success response = true ->
  body response = Parsed (JObj members) ->
  fst (decode_response response w) = Return (JObj members).
Proof.
  intros Hok Hbody.
  unfold decode_response, Httpx.raise_for_status, Httpx.json. rewrite Hok, Hbody.
  unfold bind, lift, logging_log, ret. cbn.
  unfold Json.has_key.
  destruct (Json.lookup "errors" members) as [errors|]; reflexivity.
Qed.



(** C4, amended. With a credential and a query that is not empty, for
    every response with a 2xx status whose body parses as a JSON object and
    whose rate limit headers are readable, [execute] returns that object,
    serialised, with or without an [errors] member in it. *)
Theorem success_object_returned (query : string)
    (variables : option (list (string * json))) (w : World)
    (response : Response) (members : list (string * json)) :
  query <> "" ->
  token_truthy (GITHUB_TOKEN w) = true ->
  remote (outgoing (GITHUB_TOKEN w) query variables) = Responds response ->
  Httpx.is_success response = true ->
  rate_limit_readable (headers response) = true ->
  body response = Parsed (JObj members) ->
  result_of (execute query variables w) = Return (Json.dumps (JObj members)).
Proof.
  intros Hq Ht Hresp Hok Hrate Hbody.
  destruct (execute_nonempty_query remote query variables w Hq)
    as (w1 & Htok & Hsent & Hrun).
  unfold result_of. rewrite Hrun.
  rewrite make_github_request_run by congruence.
  cbv zeta. rewrite Htok, Hresp. cbn [fst]. unfold try_except.
  match goal with
  | |- context [on_response response ?w2] =>
      destruct (on_response_readable response w2 Hrate) as (w3 & _ & ->)
  end.
  pose proof (decode_response_object response members w3 Hok Hbody) as Hres.
  destruct (decode_response response w3) as [[v|e] w4]; cbn [fst] in *;
    [|discriminate Hres].
  injection Hres as ->. reflexivity.
Qed.

(** C8, amended. With a credential and a query that is not empty, one
    request goes out; when the caller supplies no variables its body is the
    object with the one member [query]; when the caller supplies variables
    that are not empty its body has the two members [query] and
    [variables]. *)
Theorem request_body_variables (query : string)
    (variables : option (list (string * json))) (w : World) :
  query <> "" ->
  token_truthy (GITHUB_TOKEN w) = true ->
  exists req,
    sent (state_after (execute query variables w)) = (sent w ++ [req])%list
    /\ (variables = None -> req_json req = JObj [("query", JStr query)])
    /\ (forall kv rest,
          variables = Some (kv :: rest) ->
          req_json req
          = JObj [("query", JStr query); ("variables", JObj (kv :: rest))]).
Proof.
  intros Hq Ht. exists (outgoing (GITHUB_TOKEN w) query variables).
  split; [now apply execute_sends_outgoing|].
  split.
  - intros ->. reflexivity.
  - intros kv rest ->. reflexivity.
Qed.

(** C10. With a credential and a query that is not empty, an empty mapping
    for the variables is treated as no variables at all: the run is the same
    in every respect, and the one request that goes out has the object with
    the one member [query] for a body. *)
Theorem empty_variables_omitted (query : string) (w : World) :
  query <> "" ->
  token_truthy (GITHUB_TOKEN w) = true ->
  execute query (Some []) w = execute query None w
  /\ exists req,
       sent (state_after (execute query (Some []) w)) = (sent w ++ [req])%list
       /\ req_json req = JObj [("query", JStr query)].
Proof.
  intros Hq Ht. split; [reflexivity|].
  exists (outgoing (GITHUB_TOKEN w) query (Some [])).
  split; [now apply execute_sends_outgoing | reflexivity].
Qed.

(** C9. Against the same endpoint, a fixed function from the request to
    the outcome, running [execute] a second time with the same query and
    variables, in the state the first run left, gives the result of the
    first run. *)
Theorem execute_twice_same_result (query : string)
    (variables : option (list (string * json))) (w : World) :
  result_of (execute query variables (state_after (execute query variables w)))
  = result_of (execute query variables w).
Proof.
  pose proof (steady_github_execute_graphql remote query variables) as Hsteady.
  destruct (Hsteady w w eq_refl) as [_ Htok].
  destruct (Hsteady (state_after (execute query variables w)) w Htok) as [Hres _].
  exact Hres.
Qed.


End Properties.

(** X13. With a credential and a query that is not empty, two responses
    that differ in their headers only, both with readable rate limit
    headers, give the same result. *)
Lemma readable_rate_limit_headers_advisory (remote1 remote2 : Request -> Outcome)
    (query : string) (variables : option (list (string * json))) (w : World)
    (r1 r2 : Response) :
  query <> "" ->
  token_truthy (GITHUB_TOKEN w) = true ->
  remote1 (outgoing (GITHUB_TOKEN w) query variables) = Responds r1 ->
  remote2 (outgoing (GITHUB_TOKEN w) query variables) = Responds r2 ->
  status_code r1 = status_code r2 ->
  text r1 = text r2 ->
  body r1 = body r2 ->
  rate_limit_readable (headers r1) = true ->
  rate_limit_readable (headers r2) = true ->
  result_of (github_execute_graphql remote1 query variables w)
  = result_of (github_execute_graphql remote2 query variables w).
Proof.
  intros Hq Ht H1 H2 Hstatus Htext Hbody Hr1 Hr2.
  destruct (execute_nonempty_query remote1 query variables w Hq)
    as (wa & Htoka & _ & Hruna).
  destruct (execute_nonempty_query remote2 query variables w Hq)
    as (wb & Htokb & _ & Hrunb).
  unfold result_of. rewrite Hruna, Hrunb. cbn [fst].
  rewrite !make_github_request_run by congruence.
  cbv zeta. rewrite Htoka, Htokb, H1, H2.
  match goal with
  | |- context [try_except (on_response r1) on_exception ?w1] =>
      destruct (handled_response_readable r1 w1 Hr1) as (wa' & Htoka' & ->)
  end.
  match goal with
  | |- context [try_except (on_response r2) on_exception ?w2] =>
      destruct (handled_response_readable r2 w2 Hr2) as (wb' & Htokb' & ->)
  end.
  cbn [GITHUB_TOKEN] in *.
  rewrite (decode_reads_no_header r1 r2 wa' wb' Hstatus Htext Hbody) by congruence.
  reflexivity.
Qed.

(** C6 at a process without a credential. *)
Lemma missing_token_reported_witness :
  result_of (github_execute_graphql unreachable viewer_query None without_token)
  = Return (Json.dumps
              (JObj [("errors",
                      JArr [JObj [("message", JStr "Server missing GitHub API token.")]])]))
  /\ sent (state_after (github_execute_graphql unreachable viewer_query None without_token))
     = [].
Proof.
  apply (missing_token_reported unreachable viewer_query None without_token).
  - discriminate.
  - reflexivity.
Defined.

(** C7 at an endpoint whose calls time out. *)
Lemma transport_failure_reported_witness :
  result_of (github_execute_graphql unreachable viewer_query None with_token)
  = Return (Json.dumps
              (JObj [("errors",
                      JArr [JObj [("message",
                                   JStr "HTTP Request Error connecting to GitHub: timed out")]])])).
Proof.
  apply (transport_failure_reported unreachable viewer_query None with_token "timed out").
  - discriminate.
  - reflexivity.
  - reflexivity.
Defined.

(** C4 at a success response that carries the service's own [errors]. *)
Lemma success_object_returned_witness :
  result_of (github_execute_graphql
               (answering (json_response 200
                             [("X-RateLimit-Limit", "5000"); ("X-RateLimit-Remaining", "12")]
                             (JObj [("data", JNull);
                                    ("errors", JArr [JObj [("message", JStr "Not found")]])])))
               viewer_query None with_token)
  = Return (Json.dumps (JObj [("data", JNull);
                              ("errors", JArr [JObj [("message", JStr "Not found")]])])).
Proof.
  apply (success_object_returned _ viewer_query None with_token
           (json_response 200
              [("X-RateLimit-Limit", "5000"); ("X-RateLimit-Remaining", "12")]
              (JObj [("data", JNull);
                     ("errors", JArr [JObj [("message", JStr "Not found")]])]))).
  - discriminate.
  - reflexivity.
  - reflexivity.
  - reflexivity.
  - reflexivity.
  - reflexivity.
Defined.

(** C4 as first stated fails: a 2xx response whose body is the JSON number
    42 is not returned as it is; the result is an error entry instead. *)
Lemma success_number_not_returned :
  Httpx.is_success (json_response 200 [] (JInt 42)) = true
  /\ body (json_response 200 [] (JInt 42)) = Parsed (JInt 42)
  /\ result_of (github_execute_graphql (answering (json_response 200 [] (JInt 42)))
                  viewer_query None with_token)
     <> Return (Json.dumps (JInt 42))
  /\ result_of (github_execute_graphql (answering (json_response 200 [] (JInt 42)))
                  viewer_query None with_token)
     = Return (Json.dumps
                 (JObj [("errors",
                         JArr [JObj [("message",
                                      JStr "An unexpected error occurred: argument of type 'int' is not iterable")]])])).
Proof.
  split; [reflexivity | split; [reflexivity | split]].
  - vm_compute. discriminate.
  - reflexivity.
Qed.

(** C8 at a query with one variable. *)
Lemma request_body_variables_witness :
  exists req,
    sent (state_after (github_execute_graphql unreachable viewer_query
                         (Some [("login", JStr "octocat")]) with_token))
    = ([] ++ [req])%list
    /\ (Some [("login", JStr "octocat")] = None ->
        req_json req = JObj [("query", JStr viewer_query)])
    /\ (forall kv rest,
          Some [("login", JStr "octocat")] = Some (kv :: rest) ->
          req_json req
          = JObj [("query", JStr viewer_query); ("variables", JObj (kv :: rest))]).
Proof.
  apply (request_body_variables unreachable viewer_query
           (Some [("login", JStr "octocat")]) with_token).
  - discriminate.
  - reflexivity.
Defined.

(** C8 as first stated fails: variables supplied as an empty mapping are
    not in the body of the request. *)
Lemma supplied_empty_variables_not_sent :
  exists req,
    sent (state_after (github_execute_graphql unreachable viewer_query (Some [])
                         with_token))
    = [req]
    /\ req_json req = JObj [("query", JStr viewer_query)]
    /\ req_json req <> JObj [("query", JStr viewer_query); ("variables", JObj [])].
Proof.
  eexists. split; [reflexivity | split; [reflexivity | discriminate]].
Qed.

(** C10 at a process with a credential. *)
Lemma empty_variables_omitted_witness :
  github_execute_graphql unreachable viewer_query (Some []) with_token
  = github_execute_graphql unreachable viewer_query None with_token
  /\ exists req,
       sent (state_after (github_execute_graphql unreachable viewer_query (Some [])
                            with_token))
       = ([] ++ [req])%list
       /\ req_json req = JObj [("query", JStr viewer_query)].
Proof.
  apply (empty_variables_omitted unreachable viewer_query with_token).
  - discriminate.
  - reflexivity.
Defined.

(** The text of the result for an empty query, character by character:
    [json.dumps] puts a space after each colon. *)
Example empty_query_text :
  let quoted (s : string) := String PyStr.dquote s ++ String PyStr.dquote "" in
  result_of (github_execute_graphql unreachable "" None with_token)
  = Return ("{" ++ quoted "errors" ++ ": [{" ++ quoted "message" ++ ": "
            ++ quoted "Query cannot be empty." ++ "}]}").
Proof. reflexivity. Qed.

(** C1 fails on the code. The endpoint answers 500 with the body
    [errors: []]: the clause for status errors indexes the empty list, and
    the [IndexError] leaves [execute]; no string is returned. *)
Theorem status_error_escapes_execute :
  result_of (github_execute_graphql (answering (json_response 500 [] no_errors_listed))
               viewer_query None with_token)
  = Raise (Fault IndexError "list index out of range").
Proof. reflexivity. Qed.

(** C2 fails on the code. The endpoint answers 422 with a validation error
    whose first entry has no message: the clause for status errors raises
    [KeyError], and no result with a composed message is returned. *)
Theorem status_error_without_message_raises :
  result_of (github_execute_graphql (answering (json_response 422 [] validation_failed))
               viewer_query None with_token)
  = Raise (Fault KeyError "'message'").
Proof. reflexivity. Qed.

(** The example of the specification for a status error: 403 with the
    body [message: Bad credentials]. *)
Example bad_credentials_composed :
  result_of (github_execute_graphql (answering (json_response 403 [] bad_credentials))
               viewer_query None with_token)
  = Return (Json.dumps
              (JObj [("errors",
                      JArr [JObj [("message",
                                   JStr "HTTP Status Error: 403 - Bad credentials")]])])).
Proof. reflexivity. Qed.

(** The example of the specification for a success: 200 with the body
    [data: {repository: {name: Hello-World}}]. *)
Example hello_world_returned :
  result_of (github_execute_graphql (answering (json_response 200 [] hello_world))
               viewer_query None with_token)
  = Return (Json.dumps hello_world).
Proof. reflexivity. Qed.

(** C3 fails on the code. Two runs against responses that differ in the
    rate limit headers only: without the headers the body comes back; with
    a remaining count that is not an integer literal, [int] raises and the
    result is an error entry. *)
Theorem rate_limit_header_changes_result :
  result_of (github_execute_graphql (answering (json_response 200 [] hello_world))
               viewer_query None with_token)
  = Return (Json.dumps hello_world)
  /\ result_of (github_execute_graphql
                  (answering (json_response 200
                                [ ("X-RateLimit-Limit", "5000");
                                  ("X-RateLimit-Remaining", "unlimited") ]
                                hello_world))
                  viewer_query None with_token)
     = Return (Json.dumps
                 (JObj [("errors",
                         JArr [JObj [("message",
                                      JStr "An unexpected error occurred: invalid literal for int() with base 10: 'unlimited'")]])])).
Proof. split; reflexivity. Qed.

(* ===================================================================== *)
(** * Further properties: what the functions log, send and let escape *)
(* ===================================================================== *)

Section BlindComputations.

Context {A B : Type}.

Lemma blind_ret (a : A) : blind (ret a).
Proof. intros w1 w2 Hw. split; [reflexivity | exact Hw]. Qed.

Lemma blind_raise (e : exn) : blind (@raise A e).
Proof. intros w1 w2 Hw. split; [reflexivity | exact Hw]. Qed.

Lemma blind_lift (r : pyres A) : blind (lift r).
Proof. intros w1 w2 Hw. split; [reflexivity | exact Hw]. Qed.

Lemma blind_bind (m : Py A) (k : A -> Py B) :
  blind m -> (forall a, blind (k a)) -> blind (bind m k).
Proof.
  intros Hm Hk w1 w2 Hw. unfold bind.
  destruct (Hm w1 w2 Hw) as [Hr Hl].
  destruct (m w1) as [[a1|e1] w1'], (m w2) as [[a2|e2] w2']; cbn in *;
    try discriminate.
  - injection Hr as ->. exact (Hk a2 w1' w2' Hl).
  - injection Hr as ->. split; [reflexivity | exact Hl].
Qed.

Lemma blind_try (m : Py A) (h : exn -> Py A) :
  blind m -> (forall e, blind (h e)) -> blind (try_except m h).
Proof.
  intros Hm Hh w1 w2 Hw. unfold try_except.
  destruct (Hm w1 w2 Hw) as [Hr Hl].
  destruct (m w1) as [[a1|e1] w1'], (m w2) as [[a2|e2] w2']; cbn in *;
    try discriminate.
  - split; assumption.
  - injection Hr as ->. exact (Hh e2 w1' w2' Hl).
Qed.

End BlindComputations.

Lemma blind_logging_log (lvl : level) (msg : string) : blind (logging_log lvl msg).
Proof.
  intros w1 w2 Hw. destruct lvl; cbn; (split; [reflexivity | congruence]).
Qed.

#[export] Hint Resolve blind_ret blind_raise blind_lift blind_logging_log : py.

(** As [py_parts], for [blind]. *)
Ltac py_blind :=
  repeat first
    [ progress intros
    | solve [auto with py]
    | apply blind_bind | apply blind_try
    | match goal with
      | |- context [if ?c then _ else _] => destruct c
      | |- context [match ?x with _ => _ end] => destruct x
      end ].

Lemma blind_log_rate_limit (response : Response) : blind (log_rate_limit response).
Proof. unfold log_rate_limit. py_blind. Qed.

Lemma blind_on_status_error (response : Response) : blind (on_status_error response).
Proof. unfold on_status_error. py_blind. Qed.

Lemma blind_decode_response (response : Response) : blind (decode_response response).
Proof. unfold decode_response. py_blind. Qed.

#[export] Hint Resolve blind_log_rate_limit blind_on_status_error
  blind_decode_response : py.

Lemma blind_on_response (response : Response) : blind (on_response response).
Proof. unfold on_response. py_blind. Qed.

Lemma blind_on_exception (e : exn) : blind (on_exception e).
Proof. unfold on_exception. py_blind. Qed.

#[export] Hint Resolve blind_on_response blind_on_exception : py.

(** The run of [github_execute_graphql] on a query that is not empty, in
    full: one record is logged, then [make_github_request] runs. *)
Lemma execute_nonempty_unfold (remote : Request -> Outcome) (query : string)
    (variables : option (list (string * json))) (w : World) :
  query <> "" ->
  github_execute_graphql remote query variables w
  = let w1 := mkWorld (GITHUB_TOKEN w)
                (log w ++ [(INFO, "Executing github_execute_graphql with query starting: "
                                  ++ PyStr.take 50 query ++ "...")])
                (sent w) in
    (match fst (make_github_request remote query variables w1) with
     | Return result => Return (Json.dumps result)
     | Raise e => Raise e
     end,
     snd (make_github_request remote query variables w1)).
Proof.
  intros Hq. unfold github_execute_graphql. rewrite (truthy_nonempty _ Hq).
  cbn [negb]. unfold bind at 1. cbn [logging_log fst snd]. cbv zeta.
  unfold bind, ret.
  destruct (make_github_request remote query variables _) as [[result|e] w2];
    reflexivity.
Qed.

(** With a credential, the same in full: after the record and the request,
    what runs is the rest of the [try] block or an [except] clause. *)
Lemma execute_with_token_unfold (remote : Request -> Outcome) (query : string)
    (variables : option (list (string * json))) (w : World) :
  query <> "" ->
  token_truthy (GITHUB_TOKEN w) = true ->
  let req := outgoing (GITHUB_TOKEN w) query variables in
  let w1 := mkWorld (GITHUB_TOKEN w)
              (log w ++ [(INFO, "Executing github_execute_graphql with query starting: "
                                ++ PyStr.take 50 query ++ "...")])
              (sent w ++ [req]) in
  let handled := match remote req with
                 | Responds response => try_except (on_response response) on_exception w1
                 | Fails e => on_exception e w1
                 end in
  github_execute_graphql remote query variables w
  = (match fst handled with
     | Return result => Return (Json.dumps result)
     | Raise e => Raise e
     end,
     snd handled).
Proof.
  intros Hq Ht. cbv zeta.
  rewrite (execute_nonempty_unfold remote query variables w Hq). cbv zeta.
  rewrite make_github_request_run by exact Ht.
  reflexivity.
Qed.

Section FurtherProperties.

Variable remote : Request -> Outcome.

Local Abbreviation execute := (github_execute_graphql remote).

(** X1. With a credential and a query that is not empty, when the call to
    the endpoint raises an exception that is neither a request error nor a
    status error, [execute] returns the one error whose message is
    [An unexpected error occurred: ] followed by the text of the
    exception. *)
Theorem unexpected_fault_reported (query : string)
    (variables : option (list (string * json))) (w : World)
    (cls : fault_class) (detail : string) :
  query <> "" ->
  token_truthy (GITHUB_TOKEN w) = true ->
  remote (outgoing (GITHUB_TOKEN w) query variables) = Fails (Fault cls detail) ->
  result_of (execute query variables w)
  = Return (Json.dumps
              (JObj [("errors",
                      JArr [JObj [("message",
                                   JStr ("An unexpected error occurred: " ++ detail))]])])).
Proof.
  intros Hq Ht Hfail. unfold result_of.
  rewrite (execute_with_token_unfold remote query variables w Hq Ht).
  cbv zeta. rewrite Hfail. reflexivity.
Qed.


(** X3. Whatever the query, the variables, the credential and the
    endpoint, a run of [execute] sends at most one request and leaves the
    credential as it is. A request goes out only for a query that is not
    empty and with a credential; it goes to the fixed URL with the timeout
    of 30, carries the credential as a bearer token beside the two fixed
    headers, and its body is an object whose [query] is the query. *)
Theorem at_most_one_request (query : string)
    (variables : option (list (string * json))) (w : World) :
  exists reqs,
    sent (state_after (execute query variables w)) = (sent w ++ reqs)%list
    /\ (length reqs <= 1)%nat
    /\ GITHUB_TOKEN (state_after (execute query variables w)) = GITHUB_TOKEN w
    /\ forall req,
         In req reqs ->
         query <> ""
         /\ token_truthy (GITHUB_TOKEN w) = true
         /\ req_url req = "https://api.github.com/graphql"
         /\ req_timeout req = 30
         /\ req_headers req
            = [ ("Authorization", "Bearer " ++ str_opt (GITHUB_TOKEN w));
                ("Content-Type", "application/json");
                ("User-Agent", "MCPGitHubServer/0.1.0") ]
         /\ exists members,
              req_json req = JObj members
              /\ Json.lookup "query" members = Some (JStr query).
Proof.
  pose proof (steady_github_execute_graphql remote query variables w w eq_refl)
    as [_ Htoken].
  destruct query as [|c query'] eqn:Hquery.
  { destruct (execute_empty_query remote variables w) as (w' & Hrun & Hsent).
    exists []. unfold state_after in *. rewrite Hrun in *. cbn [snd] in *.
    rewrite app_nil_r.
    split; [exact Hsent|]. split; [apply le_0_n|]. split; [exact Htoken|].
    intros req []. }
  rewrite <- Hquery in *.
  assert (Hq : query <> "") by (rewrite Hquery; discriminate).
  destruct (token_truthy (GITHUB_TOKEN w)) eqn:Ht.
  - exists [outgoing (GITHUB_TOKEN w) query variables].
    split; [now apply execute_sends_outgoing|].
    split; [apply le_n|]. split; [exact Htoken|].
    intros req [<-|[]].
    split; [exact Hq|]. split; [reflexivity|]. split; [reflexivity|].
    split; [reflexivity|]. split; [reflexivity|].
    eexists. split; reflexivity.
  - destruct (execute_no_token remote query variables w Hq Ht) as (w' & Hrun & Hsent).
    exists []. unfold state_after in *. rewrite Hrun in *. cbn [snd] in *.
    rewrite app_nil_r.
    split; [exact Hsent|]. split; [apply le_0_n|]. split; [exact Htoken|].
    intros req [].
Qed.

End FurtherProperties.

(** X4. The credential reaches nothing but the request: for two processes
    with credentials, the same log so far and endpoints that give the same
    outcome, a run of [execute] returns the same result and logs the same
    records, whatever the two credentials are. *)
Theorem credential_confined (remote1 remote2 : Request -> Outcome) (query : string)
    (variables : option (list (string * json))) (w1 w2 : World) :
  query <> "" ->
  token_truthy (GITHUB_TOKEN w1) = true ->
  token_truthy (GITHUB_TOKEN w2) = true ->
  log w1 = log w2 ->
  remote1 (outgoing (GITHUB_TOKEN w1) query variables)
  = remote2 (outgoing (GITHUB_TOKEN w2) query variables) ->
  result_of (github_execute_graphql remote1 query variables w1)
  = result_of (github_execute_graphql remote2 query variables w2)
  /\ log (state_after (github_execute_graphql remote1 query variables w1))
     = log (state_after (github_execute_graphql remote2 query variables w2)).
Proof.
  intros Hq Ht1 Ht2 Hlog Hout. unfold result_of, state_after.
  rewrite (execute_with_token_unfold remote1 query variables w1 Hq Ht1).
  rewrite (execute_with_token_unfold remote2 query variables w2 Hq Ht2).
  cbv zeta. rewrite Hout, Hlog. cbn [fst snd].
  destruct (remote2 (outgoing (GITHUB_TOKEN w2) query variables)) as [response|e].
  - match goal with
    | |- context [try_except _ _ ?wa] =>
        match goal with
        | |- context [snd (try_except _ _ ?wb)] =>
            destruct (blind_try _ _ (blind_on_response response) blind_on_exception
                        wa wb eq_refl) as [-> ->]
        end
    end. split; reflexivity.
  - match goal with
    | |- context [on_exception e ?wa] =>
        match goal with
        | |- context [snd (on_exception e ?wb)] =>
            destruct (blind_on_exception e wa wb eq_refl) as [-> ->]
        end
    end. split; reflexivity.
Qed.












Lemma module_level_run (environ : list (string * string)) (w : World) :
  module_level environ w
  = (Return tt,
     mkWorld (environ_get "GITHUB_TOKEN" environ)
             (log w ++ module_records environ) (sent w)).
Proof.
  unfold module_level, module_records, bind, assign_token, read_token, logging_log, ret.
  cbn [level_no Z.leb Z.compare Pos.compare Pos.compare_cont fst snd
       GITHUB_TOKEN log sent].
  destruct (token_truthy (environ_get "GITHUB_TOKEN" environ));
    cbn [negb GITHUB_TOKEN log sent app]; rewrite <- ?app_assoc; reflexivity.
Qed.

Lemma main_without_token (mcp_run : Py unit) (w : World) :
  token_truthy (GITHUB_TOKEN w) = false ->
  main mcp_run w
  = (Return 1,
     mkWorld (GITHUB_TOKEN w)
       (log w ++ [ (INFO, "Attempting to run GitHub GraphQL MCP server via stdio...");
                   (CRITICAL, "FATAL: Cannot start server, GitHub token missing.") ])
       (sent w)).
Proof.
  intros Ht. unfold main, bind, read_token, logging_log, ret.
  cbn [level_no Z.leb Z.compare Pos.compare Pos.compare_cont fst snd
       GITHUB_TOKEN log sent].
  rewrite Ht. cbn [negb GITHUB_TOKEN log sent]. rewrite <- app_assoc. reflexivity.
Qed.

Lemma main_with_token (mcp_run : Py unit) (w : World) :
  token_truthy (GITHUB_TOKEN w) = true ->
  main mcp_run w
  = match mcp_run (serving_state w) with
    | (Return _, w') =>
        (Return 0,
         mkWorld (GITHUB_TOKEN w') (log w' ++ [(INFO, "Server stopped.")]) (sent w'))
    | (Raise _, w') =>
        (Return 1,
         mkWorld (GITHUB_TOKEN w') (log w' ++ [(ERROR, "Error running server")])
                 (sent w'))
    end.
Proof.
  intros Ht. unfold main, serving_state, bind, try_except, read_token, logging_log, ret.
  cbn [level_no Z.leb Z.compare Pos.compare Pos.compare_cont fst snd
       GITHUB_TOKEN log sent].
  rewrite Ht. cbn [negb GITHUB_TOKEN log sent]. rewrite <- app_assoc. cbn [app].
  destruct (mcp_run _) as [[[]|e] w']; reflexivity.
Qed.

Lemma script_run (environ : list (string * string)) (mcp_run : Py unit) :
  script environ mcp_run fresh
  = main mcp_run (mkWorld (environ_get "GITHUB_TOKEN" environ)
                          (module_records environ) []).
Proof. unfold script, bind. rewrite module_level_run. reflexivity. Qed.

(** X7. Without a credential in the environment (the variable is not set,
    or set to the empty string) the script does not start the server: it
    ends with the exit status 1 whatever the server would do, and sends
    nothing to the network. *)
Theorem missing_token_refuses_to_start (environ : list (string * string))
    (run1 run2 : Py unit) :
  token_truthy (environ_get "GITHUB_TOKEN" environ) = false ->
  script environ run1 fresh = script environ run2 fresh
  /\ result_of (script environ run1 fresh) = Return 1
  /\ sent (state_after (script environ run1 fresh)) = [].
Proof.
  intros Ht. unfold result_of, state_after.
  rewrite !script_run, !main_without_token by exact Ht.
  repeat split.
Qed.


(** X9. At start-up the log shows the first four characters of the
    credential and nothing more of it: for two environments whose
    credentials start with the same four characters, and a server that
    itself reads nothing but the log, the script logs the same records and
    ends with the same status. *)
Theorem startup_logs_token_prefix (env1 env2 : list (string * string))
    (token1 token2 : string) (mcp_run : Py unit) :
  environ_get "GITHUB_TOKEN" env1 = Some token1 ->
  environ_get "GITHUB_TOKEN" env2 = Some token2 ->
  token1 <> "" ->
  token2 <> "" ->
  PyStr.take 4 token1 = PyStr.take 4 token2 ->
  blind mcp_run ->
  result_of (script env1 mcp_run fresh) = result_of (script env2 mcp_run fresh)
  /\ log (state_after (script env1 mcp_run fresh))
     = log (state_after (script env2 mcp_run fresh)).
Proof.
  intros H1 H2 Hn1 Hn2 Hprefix Hblind.
  unfold result_of, state_after. rewrite !script_run.
  rewrite !main_with_token
    by (cbn [GITHUB_TOKEN]; rewrite ?H1, ?H2; now apply truthy_nonempty).
  unfold serving_state, module_records. cbn [GITHUB_TOKEN log sent].
  rewrite H1, H2. cbn [token_truthy str_opt].
  rewrite (truthy_nonempty _ Hn1), (truthy_nonempty _ Hn2), Hprefix.
  match goal with
  | |- context [fst (match mcp_run ?wa with _ => _ end) = fst (match mcp_run ?wb with _ => _ end)] =>
      destruct (Hblind wa wb eq_refl) as [Hres Hlog];
      destruct (mcp_run wa) as [[[]|ea] wa'], (mcp_run wb) as [[[]|eb] wb']
  end; cbn [fst snd log] in *; try discriminate; rewrite Hlog; split; reflexivity.
Qed.

(** X10. Without a credential, the log shows the names of the variables
    of the environment and not their values: two environments with the same
    names, both without a credential, give the same log, whatever the
    values and whatever the server would do. *)
Theorem missing_token_logs_names_only (env1 env2 : list (string * string))
    (run1 run2 : Py unit) :
  map fst env1 = map fst env2 ->
  token_truthy (environ_get "GITHUB_TOKEN" env1) = false ->
  token_truthy (environ_get "GITHUB_TOKEN" env2) = false ->
  log (state_after (script env1 run1 fresh))
  = log (state_after (script env2 run2 fresh)).
Proof.
  intros Hnames Ht1 Ht2. unfold state_after.
  rewrite !script_run, !main_without_token by assumption.
  cbn [snd log]. unfold module_records, environ_keys_repr.
  rewrite Ht1, Ht2.
  rewrite <- (map_map fst JStr env1), <- (map_map fst JStr env2), Hnames.
  reflexivity.
Qed.

(** X14. A remaining count that is not an integer literal hides the
    response: with a credential and a query that is not empty, when the
    response has both rate limit headers and [int] refuses the remaining
    count, [execute] returns the unexpected error of [int], whatever the
    status and the body of the response. *)
Theorem unreadable_rate_limit_reported (remote : Request -> Outcome) (query : string)
    (variables : option (list (string * json))) (w : World)
    (response : Response) (limit remaining : string) :
  query <> "" ->
  token_truthy (GITHUB_TOKEN w) = true ->
  remote (outgoing (GITHUB_TOKEN w) query variables) = Responds response ->
  Httpx.get "X-RateLimit-Limit" (headers response) = Some limit ->
  Httpx.get "X-RateLimit-Remaining" (headers response) = Some remaining ->
  PyStr.parse_int remaining = PyStr.IntInvalid ->
  result_of (github_execute_graphql remote query variables w)
  = Return (Json.dumps
              (JObj [("errors",
                      JArr [JObj [("message",
                                   JStr ("An unexpected error occurred: "
                                         ++ "invalid literal for int() with base 10: "
                                         ++ PyStr.take 200 (PyStr.repr remaining)))]])])).
Proof.
  intros Hq Ht Hresp Hlimit Hremaining Hint. unfold result_of.
  rewrite (execute_with_token_unfold remote query variables w Hq Ht).
  cbv zeta. rewrite Hresp.
  unfold try_except, on_response, log_rate_limit.
  rewrite Hlimit, Hremaining. unfold PyOps.int. rewrite Hint.
  reflexivity.
Qed.


(* ===================================================================== *)
(** * The further properties at sample inputs *)
(* ===================================================================== *)

(** X1 at a payload that cannot be serialised. *)
Lemma unexpected_fault_reported_witness :
  result_of (github_execute_graphql unserialisable viewer_query None with_token)
  = Return (Json.dumps
              (JObj [("errors",
                      JArr [JObj [("message",
                                   JStr "An unexpected error occurred: Object of type set is not JSON serializable")]])])).
Proof.
  apply (unexpected_fault_reported unserialisable viewer_query None with_token
           TypeError "Object of type set is not JSON serializable").
  - discriminate.
  - reflexivity.
  - reflexivity.
Defined.


(** X4 at two processes with different credentials. *)
Lemma credential_confined_witness :
  result_of (github_execute_graphql (answering (json_response 200 [] hello_world))
               viewer_query None with_token)
  = result_of (github_execute_graphql (answering (json_response 200 [] hello_world))
                 viewer_query None with_other_token)
  /\ log (state_after (github_execute_graphql
                         (answering (json_response 200 [] hello_world))
                         viewer_query None with_token))
     = log (state_after (github_execute_graphql
                           (answering (json_response 200 [] hello_world))
                           viewer_query None with_other_token)).
Proof.
  apply (credential_confined (answering (json_response 200 [] hello_world))
           (answering (json_response 200 [] hello_world))
           viewer_query None with_token with_other_token).
  - discriminate.
  - reflexivity.
  - reflexivity.
  - reflexivity.
  - reflexivity.
Defined.



(** X7 at an environment without the variable. *)
Lemma missing_token_refuses_to_start_witness :
  script [("PATH", "/usr/bin")] (ret tt) fresh
  = script [("PATH", "/usr/bin")] (raise (Fault OtherException "stdin closed")) fresh
  /\ result_of (script [("PATH", "/usr/bin")] (ret tt) fresh) = Return 1
  /\ sent (state_after (script [("PATH", "/usr/bin")] (ret tt) fresh)) = [].
Proof.
  apply (missing_token_refuses_to_start [("PATH", "/usr/bin")] (ret tt)
           (raise (Fault OtherException "stdin closed"))).
  reflexivity.
Defined.

(** X9 at two credentials that start with [ghp_]. *)
Lemma startup_logs_token_prefix_witness :
  result_of (script [("GITHUB_TOKEN", "ghp_0123456789abcdef")] (ret tt) fresh)
  = result_of (script [("GITHUB_TOKEN", "ghp_fedcba9876543210")] (ret tt) fresh)
  /\ log (state_after (script [("GITHUB_TOKEN", "ghp_0123456789abcdef")] (ret tt) fresh))
     = log (state_after (script [("GITHUB_TOKEN", "ghp_fedcba9876543210")] (ret tt)
                           fresh)).
Proof.
  apply (startup_logs_token_prefix
           [("GITHUB_TOKEN", "ghp_0123456789abcdef")]
           [("GITHUB_TOKEN", "ghp_fedcba9876543210")]
           "ghp_0123456789abcdef" "ghp_fedcba9876543210" (ret tt)).
  - reflexivity.
  - reflexivity.
  - discriminate.
  - discriminate.
  - reflexivity.
  - apply blind_ret.
Defined.

(** X10 at two environments with the same names and other values. *)
Lemma missing_token_logs_names_only_witness :
  log (state_after (script [("HOME", "/root"); ("API_KEY", "s3cret")] (ret tt) fresh))
  = log (state_after (script [("HOME", "/home/dev"); ("API_KEY", "other")] (ret tt)
                        fresh)).
Proof.
  apply (missing_token_logs_names_only
           [("HOME", "/root"); ("API_KEY", "s3cret")]
           [("HOME", "/home/dev"); ("API_KEY", "other")] (ret tt) (ret tt)).
  - reflexivity.
  - reflexivity.
  - reflexivity.
Defined.



(** X13 at a response with and without rate limit headers. *)
Lemma readable_rate_limit_headers_advisory_witness :
  result_of (github_execute_graphql (answering (json_response 200 [] hello_world))
               viewer_query None with_token)
  = result_of (github_execute_graphql
                 (answering (json_response 200 nearly_exhausted hello_world))
                 viewer_query None with_token).
Proof.
  apply (readable_rate_limit_headers_advisory
           (answering (json_response 200 [] hello_world))
           (answering (json_response 200 nearly_exhausted hello_world))
           viewer_query None with_token
           (json_response 200 [] hello_world)
           (json_response 200 nearly_exhausted hello_world)).
  - discriminate.
  - reflexivity.
  - reflexivity.
  - reflexivity.
  - reflexivity.
  - reflexivity.
  - reflexivity.
  - reflexivity.
  - reflexivity.
Defined.

(** X14 at the response 401 with a remaining count that is no number. *)
Lemma unreadable_rate_limit_reported_witness :
  result_of (github_execute_graphql
               (answering (json_response 401 not_counted bad_credentials))
               viewer_query None with_token)
  = Return (Json.dumps
              (JObj [("errors",
                      JArr [JObj [("message",
                                   JStr "An unexpected error occurred: invalid literal for int() with base 10: 'unlimited'")]])])).
Proof.
  apply (unreadable_rate_limit_reported
           (answering (json_response 401 not_counted bad_credentials))
           viewer_query None with_token
           (json_response 401 not_counted bad_credentials) "5000" "unlimited").
  - discriminate.
  - reflexivity.
  - reflexivity.
  - reflexivity.
  - reflexivity.
  - reflexivity.
Defined.

